(** * plog: a leveled text logger (package [plog], file [plog.go])

    A shallow embedding of the Go package.  Go's [int] is read as [Z] (the
    code compares levels and masks bits, it never does arithmetic on them),
    strings are [string], a [*Logger] receiver is a [Logger] record threaded
    through every method, and the three services the package takes from the
    Go runtime (the formatter, the wall clock, the call stack) are modelled
    in the modules [fmt], [time] and [runtime] below.

    The mutex [mu] guards each field update and each write.  The embedding is
    of one goroutine's run, where every [Lock]/[Unlock] pair is the identity,
    so the field is left out of the record. *)

From Stdlib Require Import ZArith List String Ascii Bool Lia.
From Stdlib Require Import DecimalString.
Import ListNotations.

Open Scope string_scope.
Open Scope Z_scope.

(** ** Go values and errors *)

(** The dynamic values ([any]) that reach the formatter in this development. *)
Inductive any : Type :=
| Int (z : Z)
| Str (s : string)
| Boolean (b : bool).

(** A Go [error] value, carried by its message. *)
Record error : Type := mkError { Error : string }.

(** The newline byte, written [\n] in the Go source. *)
Definition LF : string := String "010"%char EmptyString.

(** ** Package [io]: the sink *)

Module io.

(** An [io.Writer] as the logger sees it: the byte strings it has been
    handed so far (one entry per [Write] call, oldest first) and the
    sink's verdict on a call, which may depend on what came before. *)
Record Writer : Type := mkWriter {
  received : list string;
  verdict : list string -> string -> option error
}.

(** [w.Write(p)]: the sink is handed [p] and answers with its verdict.
    The byte count Go returns next to the error is never read by the
    package and is left out. *)
Definition Write (w : Writer) (p : string) : Writer * option error :=
  (mkWriter (received w ++ [p]) (verdict w), verdict w (received w) p).

End io.

(** ** Package [fmt] *)

Module fmt.

(** Decimal rendering of an [int], as the verb [%d] prints it. *)
Definition decimal (z : Z) : string := NilZero.string_of_int (Z.to_int z).

Definition typeName (a : any) : string :=
  match a with
  | Int _ => "int"
  | Str _ => "string"
  | Boolean _ => "bool"
  end.

(** The default rendering, verb [%v]. *)
Definition value (a : any) : string :=
  match a with
  | Int z => decimal z
  | Str s => s
  | Boolean true => "true"
  | Boolean false => "false"
  end.

(** [%!verb(type=value)]: what the formatter prints for a verb that does
    not apply to its operand. *)
Definition badVerb (verb : ascii) (a : any) : string :=
  "%!" ++ String verb ("(" ++ typeName a ++ "=" ++ value a ++ ")").

Definition printVerb (verb : ascii) (a : any) : string :=
  match verb, a with
  | "v"%char, _ => value a
  | "d"%char, Int z => decimal z
  | "s"%char, Str s => s
  | "t"%char, Boolean _ => value a
  | _, _ => badVerb verb a
  end.

Fixpoint extra (args : list any) : string :=
  match args with
  | [] => ""
  | [a] => typeName a ++ "=" ++ value a
  | a :: rest => typeName a ++ "=" ++ value a ++ ", " ++ extra rest
  end.

(** [fmt.Sprintf] on the plain verbs [%v], [%d], [%s], [%t] and [%%],
    with the formatter's own markers for a missing operand, a verb that
    does not fit its operand, a lone trailing [%] and left-over operands.
    Flags, widths, precisions, argument indexes and the remaining verbs of
    Go's formatter are outside this model. *)
Fixpoint Sprintf (format : string) (a : list any) : string :=
  match format with
  | EmptyString =>
      match a with
      | [] => ""
      | _ :: _ => "%!(EXTRA " ++ extra a ++ ")"
      end
  | String "%"%char EmptyString =>
      "%!(NOVERB)" ++
      match a with
      | [] => ""
      | _ :: _ => "%!(EXTRA " ++ extra a ++ ")"
      end
  | String "%"%char (String "%"%char rest) => String "%"%char (Sprintf rest a)
  | String "%"%char (String verb rest) =>
      match a with
      | [] => "%!" ++ String verb ("(MISSING)" ++ Sprintf rest [])
      | x :: a' => printVerb verb x ++ Sprintf rest a'
      end
  | String c rest => String c (Sprintf rest a)
  end.

(** [fmt.Errorf]: an error whose message is the formatted string. *)
Definition Errorf (format : string) (a : list any) : error :=
  mkError (Sprintf format a).


(** [fmt.Fprintf(w, format, a...)]: format, then one [Write]. *)
Definition Fprintf (w : io.Writer) (format : string) (a : list any)
  : io.Writer * option error :=
  io.Write w (Sprintf format a).

(** [fmt.Fprintln(w)] with no operands: one [Write] of a newline. *)
Definition Fprintln (w : io.Writer) : io.Writer * option error :=
  io.Write w LF.

End fmt.

(** ** Package [time]: the wall clock *)

Module time.

(** A clock reading, broken into the calendar fields the layout prints. *)
Record Time : Type := mkTime {
  Year : Z; Month : Z; Day : Z; Hour : Z; Minute : Z; Second : Z
}.

Fixpoint zeros (n : nat) : string :=
  match n with
  | O => ""
  | S k => String "0"%char (zeros k)
  end.

(** [appendInt]: the sign, then the magnitude in decimal, zero-padded on
    the left to [width] digits. *)
Definition appendInt (x : Z) (width : nat) : string :=
  let digits := fmt.decimal (Z.abs x) in
  (if x <? 0 then "-" else "")
    ++ zeros (width - String.length digits) ++ digits.

(** [t.Format(time.DateTime)], the layout ["2006-01-02 15:04:05"]. *)
Definition Format_DateTime (t : Time) : string :=
  appendInt (Year t) 4 ++ "-" ++ appendInt (Month t) 2 ++ "-"
    ++ appendInt (Day t) 2 ++ " " ++ appendInt (Hour t) 2 ++ ":"
    ++ appendInt (Minute t) 2 ++ ":" ++ appendInt (Second t) 2.

(** The readings a clock produces: a calendar date with a year of at most
    four digits, and a time of day. *)
Definition wellformed (t : Time) : Prop :=
  0 <= Year t <= 9999 /\ 1 <= Month t <= 12 /\ 1 <= Day t <= 31 /\
  0 <= Hour t <= 23 /\ 0 <= Minute t <= 59 /\ 0 <= Second t <= 59.

End time.

(** ** Package [runtime]: the call stack *)

Module runtime.

(** One frame of the call stack: where the call was made and the name of
    the function making it. *)
Record Frame : Type := mkFrame {
  file : string; line : Z; funcName : string
}.

(** The stack above [runtime.Caller], seen from inside [getCall]: frame 0
    is [getCall] itself, frame 1 its caller, and so on outwards. *)
Definition Stack : Type := list Frame.

(** The largest [int] of a 64-bit platform. *)
Definition MaxInt : Z := 2 ^ 63 - 1.

(** [runtime.Caller(skip)] asks the unwinder for the frame [skip+1] levels
    up from [runtime.Caller] itself, whose own frame is [own]; the unwinder
    reads a count that is zero or negative as zero.  So a negative [skip]
    reports [own]; a [skip] from 0 on reports the frame [skip] levels up
    from [getCall] when the stack is that deep, and otherwise nothing (the
    [ok] result of the Go function is the [Some]).  At the largest [int]
    the sum [skip+1] wraps round to the smallest, and the answer is [own]
    again; no stack holds 2^63 frames, so this is the case where the
    look-up has found nothing. *)
Definition Caller (own : Frame) (st : Stack) (skip : Z) : option Frame :=
  match nth_error (own :: st) (Z.to_nat (skip + 1)) with
  | Some fr => Some fr
  | None => if skip =? MaxInt then Some own else None
  end.

End runtime.

(** What an emission reads from the world around it: the wall clock at the
    moment of the call, the call stack above [getCall], and the frame of
    [runtime.Caller] itself (its place in the Go installation). *)
Record World : Type := mkWorld {
  Now : time.Time;
  stack : runtime.Stack;
  callerFrame : runtime.Frame
}.

(** * Package [plog] *)

(** ** Output requirements constants *)

Definition RequireTimestamp : Z := Z.shiftl 1 0.
Definition RequireLevel : Z := Z.shiftl 1 1.
Definition RequireCaller : Z := Z.shiftl 1 2.
Definition RequireAll : Z :=
  Z.lor (Z.lor RequireCaller RequireLevel) RequireTimestamp.

(** ** Information levels *)

Definition LevelDebug : Z := 0.
Definition LevelInfo : Z := 1.
Definition LevelWarn : Z := 2.
Definition LevelError : Z := 3.
Definition LevelFatal : Z := 4.

Definition levelRange (level : Z) : bool :=
  (level >=? 0) && (level <=? LevelFatal).

(** ** Colors constants *)

Definition ESC : string := String "027"%char EmptyString.
Definition colorReset : string := ESC ++ "[0m".
Definition colorBlue : string := ESC ++ "[34m".
Definition colorGreen : string := ESC ++ "[32m".
Definition colorYellow : string := ESC ++ "[33m".
Definition colorRed : string := ESC ++ "[31m".
Definition colorBoldRed : string := ESC ++ "[1;31m".

(** ** Logger basic implementation *)

Record Logger : Type := mkLogger {
  level : Z;
  output : io.Writer;
  require : Z;
  enabled : bool;
  colored : bool
}.

(** The three errors the package builds, under the names the specification
    gives them. *)
Definition InvalidLevel : error := fmt.Errorf "level value is out of range" [].
Definition LoggerDisabled : error := fmt.Errorf "logger is disabled" [].
Definition LevelFiltered : error :=
  fmt.Errorf "logger ingores given level logs" [].

(** [NewLogger]: the pair (instance, error) of the Go function; a [nil]
    instance is [None]. *)
Definition NewLogger (lvl : Z) (out : io.Writer) (outputRequirements : Z)
    (containAnsi : bool) : option Logger * option error :=
  if levelRange lvl then
    (Some (mkLogger lvl out outputRequirements true containAnsi), None)
  else (None, Some (fmt.Errorf "level value is out of range" [])).

(** The methods take the receiver and give it back next to their result. *)
Definition SetLevel (l : Logger) (lvl : Z) : Logger * option error :=
  if levelRange lvl then
    (l, Some (fmt.Errorf "level value is out of range" []))
  else
    (mkLogger lvl (output l) (require l) (enabled l) (colored l), None).

Definition SetWriter (l : Logger) (out : io.Writer) : Logger :=
  mkLogger (level l) out (require l) (enabled l) (colored l).

Definition SetRequirements (l : Logger) (outputRequirements : Z) : Logger :=
  mkLogger (level l) (output l) outputRequirements (enabled l) (colored l).

Definition SetActivity (l : Logger) (on : bool) : Logger :=
  mkLogger (level l) (output l) (require l) on (colored l).

Definition SetColoring (l : Logger) (containAnsi : bool) : Logger :=
  mkLogger (level l) (output l) (require l) (enabled l) containAnsi.

(** ** Information string getters *)

Definition getColoredLevel (lvl : Z) : string :=
  if lvl =? LevelDebug then colorBlue ++ "DEBUG" ++ colorReset
  else if lvl =? LevelInfo then colorGreen ++ "INFO" ++ colorReset
  else if lvl =? LevelWarn then colorYellow ++ "WARN" ++ colorReset
  else if lvl =? LevelError then colorRed ++ "ERROR" ++ colorReset
  else if lvl =? LevelFatal then colorBoldRed ++ "FATAL" ++ colorReset
  else "INVALID".

Definition getRegularLevel (lvl : Z) : string :=
  if lvl =? LevelDebug then "DEBUG"
  else if lvl =? LevelInfo then "INFO"
  else if lvl =? LevelWarn then "WARN"
  else if lvl =? LevelError then "ERROR"
  else if lvl =? LevelFatal then "FATAL"
  else "INVALID".

Definition getTimestamp (w : World) : string :=
  time.Format_DateTime (Now w).

Definition getCall (w : World) (skip : Z) : string :=
  match runtime.Caller (callerFrame w) (stack w) skip with
  | None => "unknown"
  | Some fr =>
      fmt.Sprintf "%s:%d (%s)"
        [Str (runtime.file fr); Int (runtime.line fr);
         Str (runtime.funcName fr)]
  end.

(** ** Logger output implementation *)

(** The metadata prefix [stats] that [print] builds before it writes. *)
Definition stats (w : World) (l : Logger) (lvl : Z) : string :=
  let stats := "" in
  if negb (Z.land (require l) RequireAll =? 0) then
    let stats := "-" in
    let stats :=
      if negb (Z.land (require l) RequireCaller =? 0)
      then fmt.Sprintf "%s %s" [Str (getCall w 3); Str stats]
      else stats in
    let stats :=
      if negb (Z.land (require l) RequireTimestamp =? 0)
      then fmt.Sprintf "[%s] %s" [Str (getTimestamp w); Str stats]
      else stats in
    let stats :=
      if negb (Z.land (require l) RequireLevel =? 0)
      then
        if colored l
        then fmt.Sprintf "[%s] %s" [Str (getColoredLevel lvl); Str stats]
        else fmt.Sprintf "[%s] %s" [Str (getRegularLevel lvl); Str stats]
      else stats in
    stats
  else stats.

(** [print]: the two gates, then the prefix, then one formatted write whose
    result is dropped; the method answers [nil] after it. *)
Definition print (w : World) (l : Logger) (lvl : Z) (format : string)
    (attrs : list any) : Logger * option error :=
  if negb (enabled l) then (l, Some (fmt.Errorf "logger is disabled" []))
  else if level l >? lvl then
    (l, Some (fmt.Errorf "logger ingores given level logs" []))
  else
    let '(out, _) :=
      fmt.Fprintf (output l) ("%s %s" ++ LF)
        [Str (stats w l lvl); Str (fmt.Sprintf format attrs)] in
    (mkLogger (level l) out (require l) (enabled l) (colored l), None).

Definition Log (w : World) (l : Logger) (lvl : Z) (format : string)
    (attrs : list any) : Logger * option error :=
  print w l lvl format attrs.

Definition Debug (w : World) (l : Logger) (format : string)
    (attrs : list any) : Logger * option error :=
  print w l LevelDebug format attrs.

Definition Info (w : World) (l : Logger) (format : string)
    (attrs : list any) : Logger * option error :=
  print w l LevelInfo format attrs.

Definition Warn (w : World) (l : Logger) (format : string)
    (attrs : list any) : Logger * option error :=
  print w l LevelWarn format attrs.

(** The method [Error] of the Go type; the name [Error] is the message
    projection of [error] here. *)
Definition Error_ (w : World) (l : Logger) (format : string)
    (attrs : list any) : Logger * option error :=
  print w l LevelError format attrs.

(** How a call ends: it returns to its caller, or the process exits with a
    status ([os.Exit]). *)
Inductive Control (A : Type) : Type :=
| Returns (a : A)
| Exits (code : Z).
Arguments Returns {A} a.
Arguments Exits {A} code.

Definition os_Exit {A : Type} (code : Z) : Control A := Exits code.

(** [Fatal]: the emission at [LevelFatal], its result unread, then
    [os.Exit(0)]. *)
Definition Fatal (w : World) (l : Logger) (format : string)
    (attrs : list any) : Logger * Control unit :=
  let '(l', _) := print w l LevelFatal format attrs in
  (l', os_Exit 0).

Definition Line (l : Logger) : Logger :=
  let '(out, _) := fmt.Fprintln (output l) in
  mkLogger (level l) out (require l) (enabled l) (colored l).

(** ** Reading the sink and the lines it holds *)

(** What the sink of a logger has been handed so far. *)
Definition sinkOf (l : Logger) : list string := io.received (output l).

(** [contains needle hay]: [needle] occurs somewhere inside [hay]. *)
Fixpoint contains (needle hay : string) : bool :=
  String.prefix needle hay ||
  match hay with
  | EmptyString => false
  | String _ rest => contains needle rest
  end.

(** The leveled method of a level: [Debug], [Info], [Warn] and [Error] have
    one that reports back; [Fatal] ends the process and is kept apart. *)
Definition methodFor (lvl : Z)
  : option (World -> Logger -> string -> list any -> Logger * option error) :=
  if lvl =? LevelDebug then Some Debug
  else if lvl =? LevelInfo then Some Info
  else if lvl =? LevelWarn then Some Warn
  else if lvl =? LevelError then Some Error_
  else None.

(** The metadata segments as [print] lays them out: the level and the
    timestamp in brackets, the caller bare, each followed by one space. *)
Definition levelSegment (l : Logger) (lvl : Z) : string :=
  if Z.land (require l) RequireLevel =? 0 then ""
  else "[" ++ (if colored l then getColoredLevel lvl
               else getRegularLevel lvl) ++ "] ".

Definition timestampSegment (w : World) (l : Logger) : string :=
  if Z.land (require l) RequireTimestamp =? 0 then ""
  else "[" ++ getTimestamp w ++ "] ".

Definition callerSegment (w : World) (l : Logger) : string :=
  if Z.land (require l) RequireCaller =? 0 then ""
  else getCall w 3 ++ " ".

(** The reading of the specification for the caller: wrapped in brackets
    like the other two fields. *)
Definition spec_wrapped (field : string) : string := "[" ++ field ++ "]".

(** *** Line patterns

    The patterns used on log lines are sequences of literal bytes and
    decimal digits, anchored at both ends of the line. *)
Inductive atom : Type :=
| Lit (c : ascii)
| Digit.

Definition is_digit (c : ascii) : bool :=
  (48 <=? nat_of_ascii c)%nat && (nat_of_ascii c <=? 57)%nat.

Definition atom_match (a : atom) (c : ascii) : bool :=
  match a with
  | Lit c' => Ascii.eqb c' c
  | Digit => is_digit c
  end.

Fixpoint lit (s : string) : list atom :=
  match s with
  | EmptyString => []
  | String c rest => Lit c :: lit rest
  end.

Definition digits (n : nat) : list atom := repeat Digit n.

Fixpoint re_match (re : list atom) (s : string) : bool :=
  match re, s with
  | [], EmptyString => true
  | a :: re', String c s' => atom_match a c && re_match re' s'
  | _, _ => false
  end.

Fixpoint all_digits (s : string) : bool :=
  match s with
  | EmptyString => true
  | String c rest => is_digit c && all_digits rest
  end.

Fixpoint no_newline (s : string) : bool :=
  match s with
  | EmptyString => true
  | String c rest => negb (Ascii.eqb c "010"%char) && no_newline rest
  end.

(** No atom of the pattern accepts the newline byte. *)
Definition atoms_no_newline (r : list atom) : bool :=
  forallb (fun a => negb (atom_match a "010"%char)) r.

(** [^\[INFO\] \[\d{4}-\d{2}-\d{2} \d{2}:\d{2}:\d{2}\] - value=42$] *)
Definition info_value_line : list atom :=
  lit "[INFO] [" ++ digits 4 ++ lit "-" ++ digits 2 ++ lit "-" ++ digits 2
    ++ lit " " ++ digits 2 ++ lit ":" ++ digits 2 ++ lit ":" ++ digits 2
    ++ lit "] - value=42".

(** The line an emission hands to the sink once it is past both gates. *)
Definition emitted (w : World) (l : Logger) (lvl : Z) (format : string)
    (attrs : list any) : string :=
  stats w l lvl ++ " " ++ fmt.Sprintf format attrs ++ LF.

(** ** Fixtures: sinks, a clock reading and a call stack *)

(** A sink that accepts every write. *)
Definition memorySink : io.Writer := io.mkWriter [] (fun _ _ => None).

Definition diskFull : error := mkError "no space left on device".

(** A sink that refuses every write. *)
Definition brokenSink : io.Writer := io.mkWriter [] (fun _ _ => Some diskFull).

(** A call of a leveled method from [main.main], at 07:05:00 on 2024-03-09. *)
Definition world0 : World :=
  mkWorld (time.mkTime 2024 3 9 7 5 0)
    [runtime.mkFrame "/src/plog/plog.go" 207 "plog.getCall";
     runtime.mkFrame "/src/plog/plog.go" 231 "plog.(*Logger).print";
     runtime.mkFrame "/src/plog/plog.go" 285 "plog.(*Logger).Info";
     runtime.mkFrame "/app/main.go" 10 "main.main"]
    (runtime.mkFrame "/usr/local/go/src/runtime/extern.go" 313
       "runtime.Caller").

(** A logger on the accepting sink, at level [Info], with no metadata. *)
Definition plainLogger : Logger := mkLogger LevelInfo memorySink 0 true false.

(** The same logger on the sink that refuses every write. *)
Definition brokenLogger : Logger := mkLogger LevelInfo brokenSink 0 true false.

(** A logger that asks for the caller only. *)
Definition callerLogger : Logger :=
  mkLogger LevelInfo memorySink RequireCaller true false.

(** ** Sequences of calls

    A client drives a logger by a sequence of method calls.  [call] names
    the methods that return to their caller ([Fatal] does not), each with
    its arguments; a [CLog] also carries what the emission reads from the
    world at the moment it runs. *)
Inductive call : Type :=
| CLog (w : World) (lvl : Z) (format : string) (attrs : list any)
| CLine
| CSetLevel (lvl : Z)
| CSetWriter (out : io.Writer)
| CSetRequirements (mask : Z)
| CSetActivity (on : bool)
| CSetColoring (containAnsi : bool).

Definition exec (l : Logger) (c : call) : Logger :=
  match c with
  | CLog w lvl format attrs => fst (Log w l lvl format attrs)
  | CLine => Line l
  | CSetLevel lvl => fst (SetLevel l lvl)
  | CSetWriter out => SetWriter l out
  | CSetRequirements mask => SetRequirements l mask
  | CSetActivity on => SetActivity l on
  | CSetColoring c => SetColoring l c
  end.

Definition run (cs : list call) (l : Logger) : Logger := fold_left exec cs l.

Definition isSetWriter (c : call) : bool :=
  match c with CSetWriter _ => true | _ => false end.

Definition isSetLevel (c : call) : bool :=
  match c with CSetLevel _ => true | _ => false end.

Definition isLog (c : call) : bool :=
  match c with CLog _ _ _ _ => true | _ => false end.

(** A [Log] call whose level is not below [minimum]. *)
Definition atOrAbove (minimum : Z) (c : call) : bool :=
  match c with CLog _ lvl _ _ => minimum <=? lvl | _ => false end.

(** The last byte of [s] is a newline. *)
Fixpoint ends_with_newline (s : string) : bool :=
  match s with
  | EmptyString => false
  | String c EmptyString => Ascii.eqb c "010"%char
  | String _ rest => ends_with_newline rest
  end.

(** No byte of [s] is the verb marker [%]. *)
Fixpoint no_percent (s : string) : bool :=
  match s with
  | EmptyString => true
  | String c rest => negb (Ascii.eqb c "%"%char) && no_percent rest
  end.

(** [dddd-dd-dd dd:dd:dd] *)
Definition datetime_pattern : list atom :=
  digits 4 ++ lit "-" ++ digits 2 ++ lit "-" ++ digits 2 ++ lit " "
    ++ digits 2 ++ lit ":" ++ digits 2 ++ lit ":" ++ digits 2.

(** * Properties *)

(** ** Shared lemmas *)

Lemma Sprintf_two_strings (a b : string) :
  fmt.Sprintf ("%s %s" ++ LF) [Str a; Str b] = a ++ " " ++ b ++ LF.
Proof. reflexivity. Qed.

Lemma Sprintf_bracketed (a b : string) :
  fmt.Sprintf "[%s] %s" [Str a; Str b] = "[" ++ a ++ "] " ++ b.
Proof.
  cbn. replace (b ++ "") with b; [reflexivity|].
  induction b as [|c b IH]; cbn; [reflexivity | now rewrite <- IH].
Qed.

Lemma Sprintf_bare (a b : string) :
  fmt.Sprintf "%s %s" [Str a; Str b] = a ++ " " ++ b.
Proof.
  cbn. replace (b ++ "") with b; [reflexivity|].
  induction b as [|c b IH]; cbn; [reflexivity | now rewrite <- IH].
Qed.

Lemma append_assoc (a b c : string) : (a ++ b) ++ c = a ++ b ++ c.
Proof. induction a as [|x a IH]; cbn; [reflexivity | now rewrite IH]. Qed.

Lemma prefix_app (a b : string) : String.prefix a (a ++ b) = true.
Proof.
  induction a as [|x a IH]; cbn.
  - now destruct b.
  - destruct (ascii_dec x x); [exact IH | contradiction].
Qed.

Lemma levelRange_spec (lvl : Z) : levelRange lvl = true <-> 0 <= lvl <= 4.
Proof. unfold levelRange, LevelFatal. lia. Qed.

Lemma valid_level_cases (lvl : Z) :
  0 <= lvl <= 4 -> lvl = 0 \/ lvl = 1 \/ lvl = 2 \/ lvl = 3 \/ lvl = 4.
Proof. lia. Qed.

Lemma levelRange_false (lvl : Z) :
  levelRange lvl = false <-> lvl < 0 \/ 4 < lvl.
Proof. unfold levelRange, LevelFatal. lia. Qed.

Lemma print_disabled w l lvl format attrs :
  enabled l = false -> print w l lvl format attrs = (l, Some LoggerDisabled).
Proof. intros H. unfold print. now rewrite H. Qed.

Lemma print_filtered w l lvl format attrs :
  enabled l = true -> lvl < level l ->
  print w l lvl format attrs = (l, Some LevelFiltered).
Proof.
  intros H Hlt. unfold print. rewrite H. cbn [negb].
  destruct (Z.gtb_spec (level l) lvl); [reflexivity | lia].
Qed.

Lemma print_emits w l lvl format attrs :
  enabled l = true -> level l <= lvl ->
  print w l lvl format attrs =
    (mkLogger (level l)
       (fst (io.Write (output l) (emitted w l lvl format attrs)))
       (require l) (enabled l) (colored l), None).
Proof.
  intros H Hle. unfold print. rewrite H. cbn [negb].
  destruct (Z.gtb_spec (level l) lvl); [lia|].
  unfold fmt.Fprintf. rewrite Sprintf_two_strings. reflexivity.
Qed.

Lemma errors_distinct :
  LoggerDisabled <> LevelFiltered /\ InvalidLevel <> LoggerDisabled /\
  InvalidLevel <> LevelFiltered.
Proof. repeat split; discriminate. Qed.

(** ** Construction and level changes *)

Lemma NewLogger_in_range (lvl : Z) (out : io.Writer) (mask : Z) (c : bool) :
  0 <= lvl <= 4 ->
  NewLogger lvl out mask c = (Some (mkLogger lvl out mask true c), None).
Proof.
  intros H. apply levelRange_spec in H. unfold NewLogger. now rewrite H.
Qed.

(** C7: [NewLogger] with a level in 0..4 returns, with no error, an enabled
    logger that carries the given level, sink, metadata mask and color mode;
    with a level outside 0..4 it returns the [InvalidLevel] error and no
    instance. *)
Theorem NewLogger_validates (lvl : Z) (out : io.Writer) (mask : Z) (c : bool) :
  (0 <= lvl <= 4 ->
     exists l, NewLogger lvl out mask c = (Some l, None) /\
       enabled l = true /\ level l = lvl /\ output l = out /\
       require l = mask /\ colored l = c) /\
  (~ 0 <= lvl <= 4 -> NewLogger lvl out mask c = (None, Some InvalidLevel)).
Proof.
  split; intros H.
  - exists (mkLogger lvl out mask true c).
    rewrite (NewLogger_in_range lvl out mask c H). repeat split.
  - unfold NewLogger. destruct (levelRange lvl) eqn:E; [|reflexivity].
    apply levelRange_spec in E. contradiction.
Qed.

Lemma NewLogger_validates_witness :
  (exists l, NewLogger 3 memorySink 5 true = (Some l, None) /\
     enabled l = true /\ level l = 3 /\ output l = memorySink /\
     require l = 5 /\ colored l = true) /\
  NewLogger 5 memorySink 5 true = (None, Some InvalidLevel).
Proof.
  split.
  - apply (proj1 (NewLogger_validates 3 memorySink 5 true)). lia.
  - apply (proj2 (NewLogger_validates 5 memorySink 5 true)). lia.
Defined.

(** C1, as the code behaves: the range test of [SetLevel] is taken the wrong
    way round.  The out-of-range levels 5 and -1 are stored with no error,
    and the in-range level 2 is refused with [InvalidLevel]. *)
Theorem SetLevel_range_test_inverted (l : Logger) :
  SetLevel l 5 = (mkLogger 5 (output l) (require l) (enabled l) (colored l),
                  None) /\
  SetLevel l (-1) =
    (mkLogger (-1) (output l) (require l) (enabled l) (colored l), None) /\
  SetLevel l 2 = (l, Some InvalidLevel).
Proof. repeat split. Qed.

(** How [SetLevel] answers every level: refused exactly when in range. *)
Lemma SetLevel_behaviour (l : Logger) (lvl : Z) :
  SetLevel l lvl =
    if levelRange lvl then (l, Some InvalidLevel)
    else (mkLogger lvl (output l) (require l) (enabled l) (colored l), None).
Proof. reflexivity. Qed.

(** ** The two gates *)

(** C6: an emission returns [LoggerDisabled] exactly when [enabled] is
    false, whatever the level; on an enabled logger it returns
    [LevelFiltered] exactly when the level of the message is strictly below
    the minimum level; and whenever it returns either error the logger,
    sink included, is what it was before the call. *)
Theorem print_gates (w : World) (l : Logger) (lvl : Z) (format : string)
    (attrs : list any) :
  let r := print w l lvl format attrs in
  (snd r = Some LoggerDisabled <-> enabled l = false) /\
  (snd r = Some LevelFiltered <-> enabled l = true /\ lvl < level l) /\
  (snd r = Some LoggerDisabled \/ snd r = Some LevelFiltered ->
     fst r = l /\ sinkOf (fst r) = sinkOf l).
Proof.
  cbv zeta. destruct (enabled l) eqn:E.
  - destruct (Z.lt_ge_cases lvl (level l)) as [Hlt|Hge].
    + rewrite (print_filtered w l lvl format attrs E Hlt). cbn [fst snd].
      intuition (try discriminate; try lia).
    + rewrite (print_emits w l lvl format attrs E Hge). cbn [fst snd].
      intuition (try discriminate; try lia).
  - rewrite (print_disabled w l lvl format attrs E). cbn [fst snd].
    intuition (try discriminate; try lia).
Qed.

Lemma print_gates_witness :
  fst (print world0 plainLogger LevelDebug "x" []) = plainLogger /\
  sinkOf (fst (print world0 plainLogger LevelDebug "x" [])) = [].
Proof.
  apply (proj2 (proj2 (print_gates world0 plainLogger LevelDebug "x" []))).
  right. reflexivity.
Defined.

(** The leveled methods and [Log] are [print] at their level. *)
Lemma leveled_methods_are_print w l format attrs :
  Debug w l format attrs = print w l LevelDebug format attrs /\
  Info w l format attrs = print w l LevelInfo format attrs /\
  Warn w l format attrs = print w l LevelWarn format attrs /\
  Error_ w l format attrs = print w l LevelError format attrs /\
  (forall lvl, Log w l lvl format attrs = print w l lvl format attrs).
Proof. repeat split. Qed.

(** ** The write and its result *)

(** C2, as stated, fails: on an enabled logger whose sink refuses the write,
    [Info] at the minimum level hands the line to the sink, the sink answers
    with its error, and [Info] still returns success. *)
Lemma print_drops_write_error :
  enabled brokenLogger = true /\
  level brokenLogger <= LevelInfo /\
  snd (io.Write (output brokenLogger) (" hi" ++ LF)) = Some diskFull /\
  sinkOf (fst (Info world0 brokenLogger "hi" [])) = [" hi" ++ LF] /\
  snd (Info world0 brokenLogger "hi" []) = None.
Proof. repeat split. cbv. discriminate. Qed.

(** C2, amended: an emission that passes the enabled and level gates makes
    one write of its line to the sink and returns success, whatever the sink
    answers to that write; the sink's error is not passed on. *)
Theorem print_success_past_gates (w : World) (l : Logger) (lvl : Z)
    (format : string) (attrs : list any) :
  enabled l = true -> level l <= lvl ->
  snd (print w l lvl format attrs) = None /\
  sinkOf (fst (print w l lvl format attrs)) =
    (sinkOf l ++ [emitted w l lvl format attrs])%list.
Proof.
  intros E Hle. rewrite (print_emits w l lvl format attrs E Hle).
  split; reflexivity.
Qed.

Lemma print_success_past_gates_witness :
  snd (print world0 brokenLogger LevelWarn "hi" []) = None /\
  sinkOf (fst (print world0 brokenLogger LevelWarn "hi" [])) =
    (sinkOf brokenLogger
       ++ [emitted world0 brokenLogger LevelWarn "hi" []])%list.
Proof.
  apply (print_success_past_gates world0 brokenLogger LevelWarn "hi" []).
  - reflexivity.
  - unfold brokenLogger, LevelInfo, LevelWarn. cbn. lia.
Defined.

(** ** The metadata prefix *)

Lemma mask_bits (m : Z) :
  Z.land m RequireAll = 0 <->
  Z.land m RequireTimestamp = 0 /\ Z.land m RequireLevel = 0 /\
  Z.land m RequireCaller = 0.
Proof.
  unfold RequireAll. rewrite !Z.land_lor_distr_r, !Z.lor_eq_0_iff. tauto.
Qed.

Lemma stats_no_bits w l lvl :
  Z.land (require l) RequireAll = 0 -> stats w l lvl = "".
Proof. intros H. unfold stats. rewrite H. reflexivity. Qed.

Lemma stats_layout w l lvl :
  Z.land (require l) RequireAll <> 0 ->
  stats w l lvl =
    levelSegment l lvl ++ timestampSegment w l ++ callerSegment w l ++ "-".
Proof.
  intros H. unfold stats, levelSegment, timestampSegment, callerSegment.
  destruct (Z.eqb_spec (Z.land (require l) RequireAll) 0); [contradiction|].
  cbn [negb].
  destruct (Z.land (require l) RequireCaller =? 0);
    destruct (Z.land (require l) RequireTimestamp =? 0);
    destruct (Z.land (require l) RequireLevel =? 0);
    destruct (colored l); cbn [negb];
    rewrite ?Sprintf_bracketed, ?Sprintf_bare, ?append_assoc; reflexivity.
Qed.

(** C3, as stated, fails: with the mask 0 the line [Info] writes is a space,
    the message and a newline; it does not begin with the marker. *)
Lemma no_marker_without_metadata :
  Z.land (require plainLogger) RequireAll = 0 /\
  sinkOf (fst (Info world0 plainLogger "hi" [])) = [" hi" ++ LF] /\
  String.prefix "- hi" (" hi" ++ LF) = false /\
  String.prefix "-" (" hi" ++ LF) = false.
Proof. repeat split. Qed.

(** C3, amended: for every mask with none of the bits Timestamp, Level and
    Caller set, an emission that passes both gates writes a line with an
    empty prefix: one space, then the formatted message, then a newline. *)
Theorem print_without_metadata (w : World) (l : Logger) (lvl : Z)
    (format : string) (attrs : list any) :
  enabled l = true -> level l <= lvl ->
  Z.land (require l) RequireTimestamp = 0 ->
  Z.land (require l) RequireLevel = 0 ->
  Z.land (require l) RequireCaller = 0 ->
  stats w l lvl = "" /\
  sinkOf (fst (print w l lvl format attrs)) =
    (sinkOf l ++ [(" " ++ fmt.Sprintf format attrs ++ LF)%string])%list /\
  snd (print w l lvl format attrs) = None.
Proof.
  intros E Hle Ht Hl Hc.
  assert (Hs : stats w l lvl = "")
    by (apply stats_no_bits, mask_bits; auto).
  rewrite (print_emits w l lvl format attrs E Hle).
  unfold emitted. rewrite Hs. repeat split.
Qed.

Lemma print_without_metadata_witness :
  stats world0 (mkLogger 0 memorySink 8 true true) 2 = "" /\
  sinkOf (fst (print world0 (mkLogger 0 memorySink 8 true true) 2
                 "n=%d" [Int 7])) =
    (sinkOf (mkLogger 0 memorySink 8 true true)
       ++ [(" " ++ fmt.Sprintf "n=%d" [Int 7] ++ LF)%string])%list /\
  snd (print world0 (mkLogger 0 memorySink 8 true true) 2 "n=%d" [Int 7])
    = None.
Proof.
  apply (print_without_metadata world0 (mkLogger 0 memorySink 8 true true) 2
           "n=%d" [Int 7]); cbn; solve [reflexivity | lia].
Defined.

(** C4, as stated, fails at L1 = L2: a logger built with minimum level
    [Info] does not filter [Info]; the line is written and the call
    succeeds. *)
Lemma equal_level_not_filtered :
  LevelInfo <= LevelInfo /\
  NewLogger LevelInfo memorySink 0 false = (Some plainLogger, None) /\
  methodFor LevelInfo = Some Info /\
  sinkOf (fst (Info world0 plainLogger "x" [])) = [" x" ++ LF] /\
  snd (Info world0 plainLogger "x" []) = None /\
  snd (Info world0 plainLogger "x" []) <> Some LevelFiltered.
Proof. repeat split; try discriminate. Qed.

(** C4, amended: for all valid levels L1 <= L2 and the logger that
    [NewLogger] builds with minimum level L2.  When L1 < L2, the emission
    method of level L1, and [Log] at L1, answer [LevelFiltered] and the
    sink is handed nothing.  When L1 = L2 the message is emitted: [Log] at
    L1 returns success and hands the sink its line, and the emission method
    of level L1 ([Fatal] at level 4) does what [Log] at L1 does. *)
Theorem level_gate_is_strict (L1 L2 : Z) (out : io.Writer) (mask : Z)
    (c : bool) (w : World) (format : string) (attrs : list any) :
  0 <= L1 <= 4 -> 0 <= L2 <= 4 -> L1 <= L2 ->
  exists l,
    NewLogger L2 out mask c = (Some l, None) /\
    (L1 < L2 ->
       exists m,
         methodFor L1 = Some m /\
         m w l format attrs = (l, Some LevelFiltered) /\
         Log w l L1 format attrs = (l, Some LevelFiltered) /\
         sinkOf (fst (m w l format attrs)) = io.received out) /\
    (L1 = L2 ->
       snd (Log w l L1 format attrs) = None /\
       sinkOf (fst (Log w l L1 format attrs)) =
         (io.received out ++ [emitted w l L1 format attrs])%list /\
       (forall m, methodFor L1 = Some m ->
          m w l format attrs = Log w l L1 format attrs) /\
       (L1 = LevelFatal ->
          fst (Fatal w l format attrs) = fst (Log w l L1 format attrs))).
Proof.
  intros H1 H2 Hle.
  pose proof (NewLogger_in_range L2 out mask c H2) as Hnew.
  set (l := mkLogger L2 out mask true c) in *.
  exists l. split; [exact Hnew|]. split.
  - intros Hlt.
    assert (Hf : print w l L1 format attrs = (l, Some LevelFiltered))
      by (apply print_filtered; [reflexivity | exact Hlt]).
    assert (Hcase : L1 = 0 \/ L1 = 1 \/ L1 = 2 \/ L1 = 3) by lia.
    destruct Hcase as [-> | [-> | [-> | ->]]];
      [exists Debug | exists Info | exists Warn | exists Error_];
      (split; [reflexivity|]);
      unfold Log, Debug, Info, Warn, Error_, LevelDebug, LevelInfo,
        LevelWarn, LevelError; rewrite Hf; repeat split.
  - intros Heq.
    assert (Hp : print w l L1 format attrs =
              (mkLogger (level l)
                 (fst (io.Write (output l) (emitted w l L1 format attrs)))
                 (require l) (enabled l) (colored l), None))
      by (apply print_emits; [reflexivity | cbn; lia]).
    split; [unfold Log; rewrite Hp; reflexivity|].
    split; [unfold Log; rewrite Hp; reflexivity|]. split.
    + intros m Hm.
      destruct (valid_level_cases L1 H1) as [-> | [-> | [-> | [-> | ->]]]];
        unfold methodFor in Hm; cbn in Hm; try discriminate Hm;
        injection Hm as <-; reflexivity.
    + intros ->. unfold Fatal, Log.
      now destruct (print w l LevelFatal format attrs).
Qed.

Lemma level_gate_is_strict_witness :
  (exists l,
     NewLogger LevelWarn memorySink RequireAll false = (Some l, None) /\
     Log world0 l LevelDebug "x" [] = (l, Some LevelFiltered) /\
     Debug world0 l "x" [] = (l, Some LevelFiltered)) /\
  (exists l,
     NewLogger LevelError memorySink 0 false = (Some l, None) /\
     snd (Error_ world0 l "x" []) = None /\
     sinkOf (fst (Error_ world0 l "x" [])) = [" x" ++ LF]).
Proof.
  split.
  - destruct (level_gate_is_strict LevelDebug LevelWarn memorySink RequireAll
                false world0 "x" []) as (l & Hnew & Hlt & _);
      [unfold LevelDebug; lia | unfold LevelWarn; lia
      | unfold LevelDebug, LevelWarn; lia |].
    destruct Hlt as (m & Hm & Hmf & Hlog & _);
      [unfold LevelDebug, LevelWarn; lia|].
    exists l. split; [exact Hnew|]. split; [exact Hlog|].
    injection Hm as <-. exact Hmf.
  - destruct (level_gate_is_strict LevelError LevelError memorySink 0 false
                world0 "x" []) as (l & Hnew & _ & Heq);
      [unfold LevelError; lia | unfold LevelError; lia
      | unfold LevelError; lia |].
    destruct (Heq eq_refl) as (Hok & Hsink & Hmeth & _).
    exists l. split; [exact Hnew|].
    rewrite (Hmeth Error_ eq_refl). split; [exact Hok|].
    rewrite Hsink. injection Hnew as <-. reflexivity.
Defined.

(** C5, as stated, fails for the caller: with the mask [RequireCaller] the
    prefix is the caller's site as it is, then the separator; no bracket
    occurs in the line. *)
Lemma caller_not_bracketed :
  Z.land (require callerLogger) RequireCaller <> 0 /\
  getCall world0 3 = "/app/main.go:10 (main.main)" /\
  stats world0 callerLogger LevelInfo = "/app/main.go:10 (main.main) -" /\
  sinkOf (fst (Info world0 callerLogger "hi" [])) =
    ["/app/main.go:10 (main.main) - hi" ++ LF] /\
  contains (spec_wrapped (getCall world0 3))
    ("/app/main.go:10 (main.main) - hi" ++ LF) = false /\
  contains "[" ("/app/main.go:10 (main.main) - hi" ++ LF) = false.
Proof. repeat split. cbv. discriminate. Qed.

(** C5, amended: when at least one metadata bit is set, the prefix is the
    requested fields in the fixed order Level, Timestamp, Caller, each
    followed by one space, then the separator; the level and the timestamp
    are wrapped in brackets and the caller is written bare.  The line
    written is that prefix, a space, the message and a newline. *)
Theorem prefix_layout (w : World) (l : Logger) (lvl : Z) (format : string)
    (attrs : list any) :
  enabled l = true -> level l <= lvl ->
  Z.land (require l) RequireTimestamp <> 0 \/
  Z.land (require l) RequireLevel <> 0 \/
  Z.land (require l) RequireCaller <> 0 ->
  stats w l lvl =
    levelSegment l lvl ++ timestampSegment w l ++ callerSegment w l ++ "-" /\
  sinkOf (fst (print w l lvl format attrs)) =
    (sinkOf l ++
       [((levelSegment l lvl ++ timestampSegment w l ++ callerSegment w l
            ++ "-") ++ " " ++ fmt.Sprintf format attrs ++ LF)%string])%list.
Proof.
  intros E Hle Hbits.
  assert (Hall : Z.land (require l) RequireAll <> 0)
    by (rewrite mask_bits; tauto).
  rewrite (print_emits w l lvl format attrs E Hle). unfold emitted.
  rewrite (stats_layout w l lvl Hall). split; reflexivity.
Qed.

Lemma prefix_layout_witness :
  stats world0 (mkLogger 0 memorySink RequireAll true false) LevelError =
    "[ERROR] [2024-03-09 07:05:00] /app/main.go:10 (main.main) -" /\
  sinkOf (fst (print world0 (mkLogger 0 memorySink RequireAll true false)
                 LevelError "hi" [])) =
    ["[ERROR] [2024-03-09 07:05:00] /app/main.go:10 (main.main) - hi" ++ LF].
Proof.
  apply (prefix_layout world0 (mkLogger 0 memorySink RequireAll true false)
           LevelError "hi" []).
  - reflexivity.
  - cbn. unfold LevelError. lia.
  - left. cbv. discriminate.
Defined.

(** ** Levels outside the range *)

Lemma level_names_invalid (lvl : Z) :
  ~ 0 <= lvl <= 4 ->
  getColoredLevel lvl = "INVALID" /\ getRegularLevel lvl = "INVALID".
Proof.
  intros H. unfold getColoredLevel, getRegularLevel, LevelDebug, LevelInfo,
    LevelWarn, LevelError, LevelFatal.
  destruct (Z.eqb_spec lvl 0); [lia|]. destruct (Z.eqb_spec lvl 1); [lia|].
  destruct (Z.eqb_spec lvl 2); [lia|]. destruct (Z.eqb_spec lvl 3); [lia|].
  destruct (Z.eqb_spec lvl 4); [lia|]. split; reflexivity.
Qed.

(** C10: emission does not validate its level.  On an enabled logger, [Log]
    at any integer level at or above the minimum, in 0..4 or not, hands one
    line to the sink and returns success; and when the Level bit is set and
    the level is outside 0..4, both label tables give INVALID and the line
    begins with that label in brackets. *)
Theorem Log_accepts_any_level (w : World) (l : Logger) (lvl : Z)
    (format : string) (attrs : list any) :
  enabled l = true -> level l <= lvl ->
  snd (Log w l lvl format attrs) = None /\
  sinkOf (fst (Log w l lvl format attrs)) =
    (sinkOf l ++ [emitted w l lvl format attrs])%list /\
  (~ 0 <= lvl <= 4 -> Z.land (require l) RequireLevel <> 0 ->
     getColoredLevel lvl = "INVALID" /\ getRegularLevel lvl = "INVALID" /\
     levelSegment l lvl = "[INVALID] " /\
     String.prefix "[INVALID] " (emitted w l lvl format attrs) = true).
Proof.
  intros E Hle. unfold Log.
  rewrite (print_emits w l lvl format attrs E Hle). cbn [fst snd].
  split; [reflexivity|]. split; [reflexivity|].
  intros Hout Hbit. destruct (level_names_invalid lvl Hout) as [Hc Hp].
  assert (Hseg : levelSegment l lvl = "[INVALID] ").
  { unfold levelSegment.
    destruct (Z.eqb_spec (Z.land (require l) RequireLevel) 0);
      [contradiction|].
    rewrite Hc, Hp. now destruct (colored l). }
  repeat split; try assumption.
  unfold emitted. rewrite stats_layout, Hseg, !append_assoc.
  - apply prefix_app.
  - rewrite mask_bits. tauto.
Qed.

Lemma Log_accepts_any_level_witness :
  snd (Log world0 (mkLogger 0 memorySink RequireLevel true true) 100
         "x" []) = None /\
  sinkOf (fst (Log world0 (mkLogger 0 memorySink RequireLevel true true) 100
                 "x" [])) = ["[INVALID] - x" ++ LF] /\
  getColoredLevel 100 = "INVALID" /\ getRegularLevel 100 = "INVALID".
Proof.
  destruct (Log_accepts_any_level world0
              (mkLogger 0 memorySink RequireLevel true true) 100 "x" [])
    as (Hr & Hs & Hinv).
  - reflexivity.
  - cbn. lia.
  - destruct Hinv as (Hc & Hp & _).
    + lia.
    + cbv. discriminate.
    + repeat split; assumption.
Defined.

(** ** Fatal *)

(** C8: [Fatal] runs the emission at the Fatal level, reads nothing of its
    result, and ends the process with exit status 0 in every case: the state
    it leaves is the one [print] leaves, and its outcome is the exit whether
    the emission succeeded, was refused because the logger is disabled, was
    filtered, or met a sink that failed. *)
Theorem Fatal_exits_zero (w : World) (l : Logger) (format : string)
    (attrs : list any) :
  Fatal w l format attrs =
    (fst (print w l LevelFatal format attrs), Exits 0) /\
  (forall r : unit, snd (Fatal w l format attrs) <> Returns r) /\
  snd (Fatal w (SetActivity l false) format attrs) = Exits 0 /\
  snd (Fatal w (fst (SetLevel l 5)) format attrs) = Exits 0 /\
  snd (Fatal w (SetWriter l brokenSink) format attrs) = Exits 0.
Proof.
  assert (H : forall l0, Fatal w l0 format attrs =
            (fst (print w l0 LevelFatal format attrs), Exits 0)).
  { intros l0. unfold Fatal.
    now destruct (print w l0 LevelFatal format attrs). }
  rewrite !H. cbn [snd]. repeat split. intros r. discriminate.
Qed.

(** The three emissions named in C8 do end in an error or a failed write. *)
Lemma Fatal_after_failed_emission (w : World) (l : Logger) (format : string)
    (attrs : list any) :
  snd (print w (SetActivity l false) LevelFatal format attrs)
    = Some LoggerDisabled /\
  (enabled l = true ->
   snd (print w (fst (SetLevel l 5)) LevelFatal format attrs)
     = Some LevelFiltered) /\
  (forall p, snd (io.Write (output (SetWriter l brokenSink)) p)
     = Some diskFull).
Proof.
  split; [reflexivity|]. split; [|reflexivity].
  intros E. unfold print. cbn. rewrite E. reflexivity.
Qed.

(** ** The end-to-end line *)

Lemma in_range_by_enumeration (P : Z -> bool) (n : Z) :
  forallb P (map Z.of_nat (seq 0 (Z.to_nat n))) = true ->
  forall z, 0 <= z < n -> P z = true.
Proof.
  intros H z Hz. rewrite forallb_forall in H. apply H.
  apply in_map_iff. exists (Z.to_nat z). split; [lia|].
  apply in_seq. lia.
Qed.

Lemma appendInt_two_digits (z : Z) :
  0 <= z <= 99 ->
  all_digits (time.appendInt z 2) = true /\
  String.length (time.appendInt z 2) = 2%nat.
Proof.
  intros Hz.
  pose (P := fun z => all_digits (time.appendInt z 2)
                      && (String.length (time.appendInt z 2) =? 2)%nat).
  assert (H : P z = true).
  { apply (in_range_by_enumeration P 100); [vm_compute; reflexivity | lia]. }
  unfold P in H. apply andb_true_iff in H. destruct H as [H1 H2].
  apply Nat.eqb_eq in H2. split; assumption.
Qed.

Lemma appendInt_four_digits (z : Z) :
  0 <= z <= 9999 ->
  all_digits (time.appendInt z 4) = true /\
  String.length (time.appendInt z 4) = 4%nat.
Proof.
  intros Hz.
  pose (P := fun z => all_digits (time.appendInt z 4)
                      && (String.length (time.appendInt z 4) =? 4)%nat).
  assert (H : P z = true).
  { apply (in_range_by_enumeration P 10000); [vm_compute; reflexivity | lia]. }
  unfold P in H. apply andb_true_iff in H. destruct H as [H1 H2].
  apply Nat.eqb_eq in H2. split; assumption.
Qed.

Lemma re_match_lit (p : string) (r : list atom) (s : string) :
  re_match (lit p ++ r) (p ++ s) = re_match r s.
Proof.
  induction p as [|c p IH]; cbn; [reflexivity|].
  now rewrite Ascii.eqb_refl, IH.
Qed.

Lemma re_match_digits (d : string) (n : nat) (r : list atom) (s : string) :
  all_digits d = true -> String.length d = n ->
  re_match (digits n ++ r) (d ++ s) = re_match r s.
Proof.
  revert n. induction d as [|c d IH]; intros n Hd Hn; subst n; cbn.
  - reflexivity.
  - cbn in Hd. apply andb_true_iff in Hd. destruct Hd as [Hc Hd].
    rewrite Hc. cbn. now apply IH.
Qed.

Lemma re_match_no_newline (r : list atom) (s : string) :
  atoms_no_newline r = true -> re_match r s = true -> no_newline s = true.
Proof.
  revert s. induction r as [|a r IH]; intros [|c s] Hr Hm; cbn in *;
    try discriminate; try reflexivity.
  apply andb_true_iff in Hr. destruct Hr as [Ha Hr].
  apply andb_true_iff in Hm. destruct Hm as [Hc Hm].
  rewrite (IH s Hr Hm), andb_true_r.
  destruct (Ascii.eqb_spec c "010"%char) as [->|]; [|reflexivity].
  rewrite Hc in Ha. discriminate.
Qed.

Lemma DateTime_matches (t : time.Time) (r : list atom) (s : string) :
  time.wellformed t ->
  re_match (digits 4 ++ lit "-" ++ digits 2 ++ lit "-" ++ digits 2
              ++ lit " " ++ digits 2 ++ lit ":" ++ digits 2 ++ lit ":"
              ++ digits 2 ++ r) (time.Format_DateTime t ++ s)
  = re_match r s.
Proof.
  intros (Hy & Hmo & Hd & Hh & Hmi & Hs).
  destruct (appendInt_four_digits (time.Year t)) as [Y1 Y2]; [lia|].
  destruct (appendInt_two_digits (time.Month t)) as [Mo1 Mo2]; [lia|].
  destruct (appendInt_two_digits (time.Day t)) as [D1 D2]; [lia|].
  destruct (appendInt_two_digits (time.Hour t)) as [H1 H2]; [lia|].
  destruct (appendInt_two_digits (time.Minute t)) as [Mi1 Mi2]; [lia|].
  destruct (appendInt_two_digits (time.Second t)) as [S1 S2]; [lia|].
  unfold time.Format_DateTime. rewrite !append_assoc.
  rewrite (re_match_digits _ 4 _ _ Y1 Y2), re_match_lit.
  rewrite (re_match_digits _ 2 _ _ Mo1 Mo2), re_match_lit.
  rewrite (re_match_digits _ 2 _ _ D1 D2), re_match_lit.
  rewrite (re_match_digits _ 2 _ _ H1 H2), re_match_lit.
  rewrite (re_match_digits _ 2 _ _ Mi1 Mi2), re_match_lit.
  rewrite (re_match_digits _ 2 _ _ S1 S2). reflexivity.
Qed.

(** C9: the logger built with minimum level Info, the mask Level|Timestamp
    and no colors, called as Info("value=%d", 42) while the clock shows a
    calendar date with a four-digit year, returns success and hands its sink
    exactly one write: a line that matches
    ^\[INFO\] \[\d{4}-\d{2}-\d{2} \d{2}:\d{2}:\d{2}\] - value=42$ and holds
    no newline, followed by a single newline. *)
Theorem Info_value_line (w : World) (out : io.Writer) :
  time.wellformed (Now w) ->
  exists l line,
    NewLogger LevelInfo out (Z.lor RequireLevel RequireTimestamp) false
      = (Some l, None) /\
    snd (Info w l "value=%d" [Int 42]) = None /\
    sinkOf (fst (Info w l "value=%d" [Int 42])) =
      (io.received out ++ [(line ++ LF)%string])%list /\
    re_match info_value_line line = true /\
    no_newline line = true.
Proof.
  intros Hw.
  set (l := mkLogger LevelInfo out (Z.lor RequireLevel RequireTimestamp)
              true false).
  exists l, ("[INFO] [" ++ time.Format_DateTime (Now w) ++ "] - value=42").
  assert (Hst : stats w l LevelInfo = "[INFO] [" ++ getTimestamp w ++ "] -").
  { rewrite stats_layout by (cbv; discriminate).
    change (levelSegment l LevelInfo) with "[INFO] ".
    change (timestampSegment w l) with ("[" ++ getTimestamp w ++ "] ").
    change (callerSegment w l) with "".
    rewrite !append_assoc. reflexivity. }
  assert (Hm : re_match info_value_line
                 ("[INFO] [" ++ time.Format_DateTime (Now w)
                    ++ "] - value=42") = true).
  { unfold info_value_line. rewrite re_match_lit.
    rewrite (DateTime_matches (Now w) _ _ Hw). reflexivity. }
  split; [reflexivity|].
  unfold Info. rewrite print_emits by (cbn; unfold LevelInfo; solve [reflexivity | lia]).
  cbn [fst snd]. split; [reflexivity|]. split.
  - unfold sinkOf, emitted. cbn [output io.Write fst io.received].
    rewrite Hst. unfold getTimestamp. rewrite !append_assoc. reflexivity.
  - split; [exact Hm|].
    apply (re_match_no_newline info_value_line); [reflexivity | exact Hm].
Qed.

Lemma Info_value_line_witness :
  exists l line,
    NewLogger LevelInfo memorySink (Z.lor RequireLevel RequireTimestamp) false
      = (Some l, None) /\
    snd (Info world0 l "value=%d" [Int 42]) = None /\
    sinkOf (fst (Info world0 l "value=%d" [Int 42])) =
      (io.received memorySink ++ [(line ++ LF)%string])%list /\
    re_match info_value_line line = true /\
    no_newline line = true.
Proof.
  apply (Info_value_line world0 memorySink).
  unfold time.wellformed. cbn. lia.
Defined.

(** The line of C9 at 07:05:00 on 2024-03-09. *)
Example Info_value_line_2024 :
  sinkOf (fst (Info world0
                 (mkLogger LevelInfo memorySink
                    (Z.lor RequireLevel RequireTimestamp) true false)
                 "value=%d" [Int 42]))
  = ["[INFO] [2024-03-09 07:05:00] - value=42" ++ LF].
Proof. reflexivity. Qed.

(** * Further properties of the package *)

(** ** Line *)

Lemma run_cons (c : call) (cs : list call) (l : Logger) :
  run (c :: cs) l = run cs (exec l c).
Proof. reflexivity. Qed.

(** X1: [Line] takes no notice of the configuration.  Called n times in a
    row on any logger (disabled, or with any minimum level and mask), it
    hands the sink n more writes, each a single newline, and leaves the
    level, the mask, the enabled flag and the color mode as they were. *)
Theorem Line_bypasses_gates (n : nat) (l : Logger) :
  sinkOf (run (repeat CLine n) l) = (sinkOf l ++ repeat LF n)%list /\
  level (run (repeat CLine n) l) = level l /\
  require (run (repeat CLine n) l) = require l /\
  enabled (run (repeat CLine n) l) = enabled l /\
  colored (run (repeat CLine n) l) = colored l.
Proof.
  revert l. induction n as [|n IH]; intros l.
  - cbn. rewrite app_nil_r. repeat split.
  - cbn [repeat]. rewrite run_cons.
    destruct (IH (exec l CLine)) as (Hs & Hl & Hr & He & Hc).
    rewrite Hs, Hl, Hr, He, Hc. cbn. unfold sinkOf. cbn.
    rewrite <- app_assoc. repeat split.
Qed.

(** ** SetActivity *)

(** X2: after [SetActivity(false)] every emission, at every level, answers
    [LoggerDisabled] and hands the sink nothing; a following
    [SetActivity(true)] gives back the logger as it was when it was enabled,
    and with it the same answers. *)
Theorem SetActivity_switches_emission (w : World) (l : Logger) (lvl : Z)
    (format : string) (attrs : list any) :
  enabled l = true ->
  Log w (SetActivity l false) lvl format attrs
    = (SetActivity l false, Some LoggerDisabled) /\
  sinkOf (fst (Log w (SetActivity l false) lvl format attrs)) = sinkOf l /\
  SetActivity (SetActivity l false) true = l /\
  Log w (SetActivity (SetActivity l false) true) lvl format attrs
    = Log w l lvl format attrs.
Proof.
  intros E.
  assert (Hback : SetActivity (SetActivity l false) true = l).
  { destruct l as [lv o r e c]. cbn in E. subst e. reflexivity. }
  rewrite Hback. unfold Log.
  rewrite (print_disabled w (SetActivity l false) lvl format attrs)
    by reflexivity.
  repeat split.
Qed.

Lemma SetActivity_switches_emission_witness :
  Log world0 (SetActivity plainLogger false) LevelFatal "x" []
    = (SetActivity plainLogger false, Some LoggerDisabled) /\
  sinkOf (fst (Log world0 (SetActivity plainLogger false) LevelFatal "x" []))
    = sinkOf plainLogger /\
  SetActivity (SetActivity plainLogger false) true = plainLogger /\
  Log world0 (SetActivity (SetActivity plainLogger false) true) LevelFatal
      "x" []
    = Log world0 plainLogger LevelFatal "x" [].
Proof.
  apply (SetActivity_switches_emission world0 plainLogger LevelFatal "x" []).
  reflexivity.
Defined.

(** ** What an emission leaves alone *)

(** X3: an emission never touches the configuration.  Whatever it answers,
    the level, the mask, the enabled flag, the color mode and the sink's
    way of answering are those of before, and the sink has been handed
    either nothing or exactly one more write. *)
Theorem print_keeps_configuration (w : World) (l : Logger) (lvl : Z)
    (format : string) (attrs : list any) :
  let l' := fst (print w l lvl format attrs) in
  level l' = level l /\ require l' = require l /\
  enabled l' = enabled l /\ colored l' = colored l /\
  io.verdict (output l') = io.verdict (output l) /\
  (sinkOf l' = sinkOf l \/
   sinkOf l' = (sinkOf l ++ [emitted w l lvl format attrs])%list).
Proof.
  cbv zeta. destruct (enabled l) eqn:E.
  - destruct (Z.lt_ge_cases lvl (level l)) as [Hlt|Hge].
    + rewrite (print_filtered w l lvl format attrs E Hlt). cbn [fst].
      rewrite E. repeat (split; [reflexivity|]). now left.
    + rewrite (print_emits w l lvl format attrs E Hge).
      cbn [fst level require enabled colored output].
      repeat (split; [reflexivity || exact E|]). now right.
  - rewrite (print_disabled w l lvl format attrs E). cbn [fst].
    rewrite E. repeat (split; [reflexivity|]). now left.
Qed.

(** ** Level labels *)

(** X4: for a level in 0..4 the colored label is the plain label between an
    ANSI color code and the reset code, so the two labels differ, and the
    plain name can be read off the colored one. *)
Theorem colored_label_wraps_plain (lvl : Z) :
  0 <= lvl <= 4 ->
  (exists color,
     In color [colorBlue; colorGreen; colorYellow; colorRed; colorBoldRed] /\
     getColoredLevel lvl = color ++ getRegularLevel lvl ++ colorReset) /\
  getColoredLevel lvl <> getRegularLevel lvl.
Proof.
  intros H.
  destruct (valid_level_cases lvl H) as [-> | [-> | [-> | [-> | ->]]]];
    (split; [|cbv; discriminate]).
  - exists colorBlue. split; [cbn; tauto | reflexivity].
  - exists colorGreen. split; [cbn; tauto | reflexivity].
  - exists colorYellow. split; [cbn; tauto | reflexivity].
  - exists colorRed. split; [cbn; tauto | reflexivity].
  - exists colorBoldRed. split; [cbn; tauto | reflexivity].
Qed.

Lemma colored_label_wraps_plain_witness :
  (exists color,
     In color [colorBlue; colorGreen; colorYellow; colorRed; colorBoldRed] /\
     getColoredLevel LevelWarn
       = color ++ getRegularLevel LevelWarn ++ colorReset) /\
  getColoredLevel LevelWarn <> getRegularLevel LevelWarn.
Proof.
  apply (colored_label_wraps_plain LevelWarn). unfold LevelWarn. lia.
Defined.

(** X5: the labels tell the levels apart.  Two levels in 0..4 with the same
    plain label, or the same colored label, are the same level. *)
Theorem level_labels_identify_levels (a b : Z) :
  0 <= a <= 4 -> 0 <= b <= 4 ->
  (getRegularLevel a = getRegularLevel b -> a = b) /\
  (getColoredLevel a = getColoredLevel b -> a = b).
Proof.
  intros Ha Hb.
  destruct (valid_level_cases a Ha) as [-> | [-> | [-> | [-> | ->]]]];
    destruct (valid_level_cases b Hb) as [-> | [-> | [-> | [-> | ->]]]];
    split; intros H; try reflexivity; cbv in H; discriminate H.
Qed.

Lemma level_labels_identify_levels_witness :
  (getRegularLevel 1 = getRegularLevel 3 -> 1 = 3) /\
  (getColoredLevel 1 = getColoredLevel 3 -> 1 = 3).
Proof. apply (level_labels_identify_levels 1 3); lia. Defined.

(** X6: the sentinel label marks exactly the levels outside 0..4, in both
    tables. *)
Theorem invalid_label_iff_out_of_range (lvl : Z) :
  (getRegularLevel lvl = "INVALID" <-> ~ 0 <= lvl <= 4) /\
  (getColoredLevel lvl = "INVALID" <-> ~ 0 <= lvl <= 4).
Proof.
  split; (split; [|intros H; apply (level_names_invalid lvl H)]);
    intros H Hin;
    destruct (valid_level_cases lvl Hin) as [-> | [-> | [-> | [-> | ->]]]];
    cbv in H; discriminate H.
Qed.

(** ** The caller's site *)

(** X7: [getCall] answers [unknown] whenever the depth asked for is at or
    beyond the depth of the stack (so, from 0 on, also on an empty stack)
    and is not the largest [int]. *)
Theorem getCall_unknown_beyond_stack (w : World) (skip : Z) :
  Z.of_nat (List.length (stack w)) <= skip -> skip < runtime.MaxInt ->
  getCall w skip = "unknown".
Proof.
  intros Hdeep Hmax. unfold getCall, runtime.Caller.
  assert (Hnone : nth_error (callerFrame w :: stack w) (Z.to_nat (skip + 1))
                  = None) by (apply nth_error_None; cbn [List.length]; lia).
  rewrite Hnone. destruct (Z.eqb_spec skip runtime.MaxInt); [lia|reflexivity].
Qed.

Lemma getCall_unknown_beyond_stack_witness :
  getCall world0 4 = "unknown".
Proof.
  apply (getCall_unknown_beyond_stack world0 4).
  - cbn. lia.
  - unfold runtime.MaxInt. lia.
Defined.

(** Below 0 the answer is never [unknown] for want of a frame: [getCall]
    renders the frame of [runtime.Caller] itself. *)
Lemma getCall_negative_skip (w : World) (skip : Z) :
  skip < 0 ->
  getCall w skip =
    runtime.file (callerFrame w) ++ ":"
      ++ fmt.decimal (runtime.line (callerFrame w)) ++ " ("
      ++ runtime.funcName (callerFrame w) ++ ")".
Proof.
  intros Hneg. unfold getCall, runtime.Caller.
  replace (Z.to_nat (skip + 1)) with 0%nat by lia. reflexivity.
Qed.

(** X8: when the stack has a frame at the depth asked for, [getCall]
    renders it as the file, a colon, the line in decimal, a space and the
    function name in parentheses. *)
Theorem getCall_renders_frame (w : World) (skip : Z) (fr : runtime.Frame) :
  0 <= skip -> nth_error (stack w) (Z.to_nat skip) = Some fr ->
  getCall w skip =
    runtime.file fr ++ ":" ++ fmt.decimal (runtime.line fr) ++ " ("
      ++ runtime.funcName fr ++ ")".
Proof.
  intros Hpos Hfr. unfold getCall, runtime.Caller.
  replace (Z.to_nat (skip + 1)) with (S (Z.to_nat skip)) by lia.
  cbn [nth_error]. rewrite Hfr. reflexivity.
Qed.

Lemma getCall_renders_frame_witness :
  getCall world0 3 = "/app/main.go:10 (main.main)".
Proof.
  apply (getCall_renders_frame world0 3
           (runtime.mkFrame "/app/main.go" 10 "main.main")).
  - lia.
  - reflexivity.
Defined.

(** ** The timestamp *)

Lemma append_empty_r (s : string) : s ++ "" = s.
Proof. induction s as [|c s IH]; cbn; [reflexivity | now rewrite IH]. Qed.

Lemma re_match_length (r : list atom) (s : string) :
  re_match r s = true -> String.length s = List.length r.
Proof.
  revert s. induction r as [|a r IH]; intros [|c s] H; cbn in *;
    try discriminate; try reflexivity.
  apply andb_true_iff in H. destruct H as [_ H]. now rewrite (IH s H).
Qed.

(** X9: while the clock shows a calendar date with a year of at most four
    digits, the timestamp is nineteen bytes of the shape
    dddd-dd-dd dd:dd:dd, every field zero-padded to its width. *)
Theorem getTimestamp_shape (w : World) :
  time.wellformed (Now w) ->
  re_match datetime_pattern (getTimestamp w) = true /\
  String.length (getTimestamp w) = 19%nat.
Proof.
  intros Hw.
  assert (Hm : re_match datetime_pattern (getTimestamp w) = true).
  { unfold getTimestamp.
    rewrite <- (append_empty_r (time.Format_DateTime (Now w))).
    exact (DateTime_matches (Now w) [] "" Hw). }
  split; [exact Hm|]. now rewrite (re_match_length _ _ Hm).
Qed.

Lemma getTimestamp_shape_witness :
  re_match datetime_pattern (getTimestamp world0) = true /\
  String.length (getTimestamp world0) = 19%nat.
Proof.
  apply (getTimestamp_shape world0). unfold time.wellformed. cbn. lia.
Defined.

(** ** Runs of calls *)

Lemma ends_with_newline_app (s : string) : ends_with_newline (s ++ LF) = true.
Proof.
  induction s as [|c s IH]; [reflexivity|].
  cbn [append ends_with_newline]. destruct (s ++ LF) eqn:E; [|exact IH].
  destruct s; discriminate E.
Qed.

Lemma print_sink_cases (w : World) (l : Logger) (lvl : Z) (format : string)
    (attrs : list any) :
  sinkOf (fst (print w l lvl format attrs)) = sinkOf l \/
  sinkOf (fst (print w l lvl format attrs)) =
    (sinkOf l ++ [emitted w l lvl format attrs])%list.
Proof.
  destruct (enabled l) eqn:E.
  - destruct (Z.lt_ge_cases lvl (level l)) as [Hlt|Hge].
    + rewrite (print_filtered w l lvl format attrs E Hlt). now left.
    + rewrite (print_emits w l lvl format attrs E Hge). now right.
  - rewrite (print_disabled w l lvl format attrs E). now left.
Qed.

Lemma exec_sink (l : Logger) (c : call) :
  isSetWriter c = false ->
  sinkOf (exec l c) = sinkOf l \/
  exists p, sinkOf (exec l c) = (sinkOf l ++ [p])%list /\
            ends_with_newline p = true.
Proof.
  intros Hc. destruct c as [w lvl format attrs| |lvl|out|mask|on|ca];
    try discriminate Hc; try (left; reflexivity).
  - cbn [exec]. unfold Log.
    destruct (print_sink_cases w l lvl format attrs) as [H|H].
    + now left.
    + right. eexists. split; [exact H|]. unfold emitted.
      rewrite <- !append_assoc. apply ends_with_newline_app.
  - right. exists LF. split; reflexivity.
  - cbn [exec]. unfold SetLevel. destruct (levelRange lvl); now left.
Qed.

Lemma print_fields (w : World) (l : Logger) (lvl : Z) (format : string)
    (attrs : list any) :
  level (fst (print w l lvl format attrs)) = level l /\
  enabled (fst (print w l lvl format attrs)) = enabled l.
Proof.
  unfold print. destruct (enabled l) eqn:E; cbn [negb].
  - destruct (level l >? lvl); cbn; rewrite ?E; split; reflexivity.
  - cbn. rewrite E. split; reflexivity.
Qed.

(** X10: the sink's history only grows.  Over any run of calls that does
    not replace the sink, what the sink had been handed before is still
    there, in order, followed by the new writes; there is at most one new
    write per call, and each ends with a newline. *)
Theorem sink_is_append_only (cs : list call) (l : Logger) :
  forallb (fun c => negb (isSetWriter c)) cs = true ->
  exists added,
    sinkOf (run cs l) = (sinkOf l ++ added)%list /\
    (List.length added <= List.length cs)%nat /\
    forallb ends_with_newline added = true.
Proof.
  revert l. induction cs as [|c cs IH]; intros l Hcs.
  - exists []. cbn. rewrite app_nil_r. repeat split. lia.
  - cbn [forallb] in Hcs. apply andb_true_iff in Hcs.
    destruct Hcs as [Hc Hcs]. apply negb_true_iff in Hc.
    rewrite run_cons. destruct (IH (exec l c) Hcs) as (added & Hs & Hn & He).
    destruct (exec_sink l c Hc) as [H0|(p & Hp & Hnl)].
    + exists added. rewrite Hs, H0. repeat split; [cbn; lia | exact He].
    + exists (p :: added). rewrite Hs, Hp, <- app_assoc.
      repeat split; [cbn; lia | cbn; now rewrite Hnl, He].
Qed.

Lemma sink_is_append_only_witness :
  exists added,
    sinkOf (run [CLog world0 LevelWarn "a" []; CSetActivity false; CLine;
                 CLog world0 LevelError "b" []] plainLogger)
      = (sinkOf plainLogger ++ added)%list /\
    (List.length added <= 4)%nat /\
    forallb ends_with_newline added = true.
Proof.
  apply (sink_is_append_only
           [CLog world0 LevelWarn "a" []; CSetActivity false; CLine;
            CLog world0 LevelError "b" []] plainLogger).
  reflexivity.
Defined.

(** X11: on an enabled logger, a run of [Log] calls hands the sink exactly
    as many writes as there are calls whose level is not below the minimum
    level: one line per call that is not filtered, none for the others. *)
Theorem one_line_per_unfiltered_call (cs : list call) (l : Logger) :
  enabled l = true -> forallb isLog cs = true ->
  List.length (sinkOf (run cs l)) =
    (List.length (sinkOf l)
     + List.length (filter (atOrAbove (level l)) cs))%nat.
Proof.
  revert l. induction cs as [|c cs IH]; intros l E Hcs.
  - cbn. lia.
  - cbn [forallb] in Hcs. apply andb_true_iff in Hcs.
    destruct Hcs as [Hc Hcs].
    destruct c as [w lvl format attrs| | | | | |]; try discriminate Hc.
    rewrite run_cons. cbn [exec]. unfold Log.
    destruct (print_fields w l lvl format attrs) as [Hlv Hen].
    rewrite IH by (rewrite ?Hen; assumption). rewrite Hlv.
    cbn [filter atOrAbove].
    destruct (Z.leb_spec (level l) lvl) as [Hge|Hlt].
    + rewrite (print_emits w l lvl format attrs E Hge). unfold sinkOf.
      cbn. rewrite length_app. cbn. lia.
    + rewrite (print_filtered w l lvl format attrs E Hlt). reflexivity.
Qed.

Lemma one_line_per_unfiltered_call_witness :
  List.length
    (sinkOf (run [CLog world0 LevelDebug "a" []; CLog world0 LevelInfo "b" [];
                  CLog world0 LevelFatal "c" []] plainLogger)) = 2%nat.
Proof.
  apply (one_line_per_unfiltered_call
           [CLog world0 LevelDebug "a" []; CLog world0 LevelInfo "b" [];
            CLog world0 LevelFatal "c" []] plainLogger); reflexivity.
Defined.

Lemma exec_level (l : Logger) (c : call) :
  isSetLevel c = false -> level (exec l c) = level l.
Proof.
  intros Hc. destruct c as [w lvl format attrs| |lvl|out|mask|on|ca];
    try discriminate Hc; try reflexivity.
  cbn [exec]. unfold Log. apply print_fields.
Qed.

(** X12: only [SetLevel] moves the minimum level.  A logger built by
    [NewLogger] and then driven by any run of emissions, [Line] calls and
    the other four setters still has the level it was built with, which is
    one of the five valid levels. *)
Theorem level_kept_without_SetLevel (cs : list call) (lvl : Z)
    (out : io.Writer) (mask : Z) (c : bool) (l : Logger) :
  NewLogger lvl out mask c = (Some l, None) ->
  forallb (fun x => negb (isSetLevel x)) cs = true ->
  level (run cs l) = lvl /\ 0 <= level (run cs l) <= 4.
Proof.
  intros Hnew Hcs.
  assert (Hrun : forall cs l, forallb (fun x => negb (isSetLevel x)) cs = true
                   -> level (run cs l) = level l).
  { clear. induction cs as [|x cs IH]; intros l H; [reflexivity|].
    cbn [forallb] in H. apply andb_true_iff in H. destruct H as [Hx H].
    apply negb_true_iff in Hx.
    rewrite run_cons, (IH _ H). now apply exec_level. }
  rewrite (Hrun cs l Hcs). unfold NewLogger in Hnew.
  destruct (levelRange lvl) eqn:R; [|discriminate Hnew].
  injection Hnew as <-. cbn. apply levelRange_spec in R. split; [reflexivity|lia].
Qed.

Lemma level_kept_without_SetLevel_witness :
  level (run [CSetActivity false; CLog world0 9 "a" []; CSetRequirements 7;
              CLine; CSetColoring true; CSetWriter brokenSink] plainLogger)
    = LevelInfo /\
  0 <= level (run [CSetActivity false; CLog world0 9 "a" [];
                   CSetRequirements 7; CLine; CSetColoring true;
                   CSetWriter brokenSink] plainLogger) <= 4.
Proof.
  apply (level_kept_without_SetLevel
           [CSetActivity false; CLog world0 9 "a" []; CSetRequirements 7;
            CLine; CSetColoring true; CSetWriter brokenSink]
           LevelInfo memorySink 0 false plainLogger); reflexivity.
Defined.

(** ** Filtering *)

(** X13: filtering is monotone in the level.  If a logger lets an emission
    through at one level, it lets through every emission at that level or
    above, whatever the message and the moment. *)
Theorem filtering_is_monotone (w w' : World) (l : Logger) (lvl lvl' : Z)
    (format format' : string) (attrs attrs' : list any) :
  snd (print w l lvl format attrs) = None -> lvl <= lvl' ->
  snd (print w' l lvl' format' attrs') = None /\
  sinkOf (fst (print w' l lvl' format' attrs')) =
    (sinkOf l ++ [emitted w' l lvl' format' attrs'])%list.
Proof.
  intros Hok Hle.
  assert (H : enabled l = true /\ level l <= lvl).
  { destruct (enabled l) eqn:E.
    - split; [reflexivity|].
      destruct (Z.lt_ge_cases lvl (level l)) as [Hlt|Hge]; [|exact Hge].
      rewrite (print_filtered w l lvl format attrs E Hlt) in Hok.
      discriminate Hok.
    - rewrite (print_disabled w l lvl format attrs E) in Hok.
      discriminate Hok. }
  destruct H as [E Hmin].
  rewrite (print_emits w' l lvl' format' attrs' E) by lia.
  split; reflexivity.
Qed.

Lemma filtering_is_monotone_witness :
  snd (print world0 plainLogger LevelError "b" []) = None /\
  sinkOf (fst (print world0 plainLogger LevelError "b" [])) =
    (sinkOf plainLogger ++ [emitted world0 plainLogger LevelError "b" []])%list.
Proof.
  apply (filtering_is_monotone world0 world0 plainLogger LevelInfo LevelError
           "a" "b" [] []).
  - reflexivity.
  - unfold LevelInfo, LevelError. lia.
Defined.

(** ** The mask *)

Lemma land_low_bits (m k : Z) :
  Z.land RequireAll k = k -> Z.land (Z.land m RequireAll) k = Z.land m k.
Proof. intros H. now rewrite <- Z.land_assoc, H. Qed.

(** X14: only the three low bits of the mask count.  A logger whose mask
    carries other bits builds the same prefix, and writes the same line, as
    the logger whose mask is cut down to the bits Timestamp, Level and
    Caller. *)
Theorem unknown_mask_bits_ignored (w : World) (l : Logger) (mask lvl : Z)
    (format : string) (attrs : list any) :
  stats w (SetRequirements l mask) lvl =
    stats w (SetRequirements l (Z.land mask RequireAll)) lvl /\
  emitted w (SetRequirements l mask) lvl format attrs =
    emitted w (SetRequirements l (Z.land mask RequireAll)) lvl format attrs.
Proof.
  assert (H : stats w (SetRequirements l mask) lvl =
              stats w (SetRequirements l (Z.land mask RequireAll)) lvl).
  { unfold stats. cbn [require SetRequirements colored].
    rewrite !land_low_bits by reflexivity. reflexivity. }
  split; [exact H|]. unfold emitted. now rewrite H.
Qed.

(** ** SetWriter and SetColoring *)

(** X15: after [SetWriter] an emission that passes the gates goes to the new
    sink, as one write after what that sink already held, and the line is
    the very line the logger would have written to its old sink. *)
Theorem SetWriter_redirects (w : World) (l : Logger) (out : io.Writer)
    (lvl : Z) (format : string) (attrs : list any) :
  enabled l = true -> level l <= lvl ->
  sinkOf (fst (print w (SetWriter l out) lvl format attrs)) =
    (io.received out ++ [emitted w l lvl format attrs])%list /\
  sinkOf (fst (print w l lvl format attrs)) =
    (sinkOf l ++ [emitted w l lvl format attrs])%list.
Proof.
  intros E Hle.
  rewrite (print_emits w (SetWriter l out) lvl format attrs) by assumption.
  rewrite (print_emits w l lvl format attrs) by assumption.
  split; reflexivity.
Qed.

Lemma SetWriter_redirects_witness :
  sinkOf (fst (print world0 (SetWriter plainLogger brokenSink) LevelWarn
                 "x" [])) =
    (io.received brokenSink ++ [emitted world0 plainLogger LevelWarn "x" []])%list /\
  sinkOf (fst (print world0 plainLogger LevelWarn "x" [])) =
    (sinkOf plainLogger ++ [emitted world0 plainLogger LevelWarn "x" []])%list.
Proof.
  apply (SetWriter_redirects world0 plainLogger brokenSink LevelWarn "x" []).
  - reflexivity.
  - unfold plainLogger, LevelInfo, LevelWarn. cbn. lia.
Defined.

(** X16: the color mode reaches the output only through the level label.
    On a logger whose mask does not ask for the level, [SetColoring]
    changes neither the answer of an emission nor what the sink is
    handed. *)
Theorem SetColoring_without_level_bit (w : World) (l : Logger) (c : bool)
    (lvl : Z) (format : string) (attrs : list any) :
  Z.land (require l) RequireLevel = 0 ->
  snd (print w (SetColoring l c) lvl format attrs)
    = snd (print w l lvl format attrs) /\
  sinkOf (fst (print w (SetColoring l c) lvl format attrs))
    = sinkOf (fst (print w l lvl format attrs)).
Proof.
  intros Hbit.
  assert (Hst : stats w (SetColoring l c) lvl = stats w l lvl).
  { unfold stats. cbn [require SetColoring colored]. rewrite Hbit.
    reflexivity. }
  unfold print, fmt.Fprintf. cbn [enabled level output SetColoring].
  rewrite Hst. destruct (enabled l); cbn [negb]; [|split; reflexivity].
  destruct (level l >? lvl); split; reflexivity.
Qed.

Lemma SetColoring_without_level_bit_witness :
  snd (print world0 (SetColoring callerLogger true) LevelWarn "x" [])
    = snd (print world0 callerLogger LevelWarn "x" []) /\
  sinkOf (fst (print world0 (SetColoring callerLogger true) LevelWarn "x" []))
    = sinkOf (fst (print world0 callerLogger LevelWarn "x" [])).
Proof.
  apply (SetColoring_without_level_bit world0 callerLogger true LevelWarn
           "x" []).
  reflexivity.
Defined.

(** ** Fatal on a constructed logger *)

(** X17: on a logger as [NewLogger] returns it, [Fatal] is never filtered:
    its line is handed to the sink, as one write, before the process exits
    with status 0. *)
Theorem Fatal_written_on_new_logger (w : World) (lvl : Z) (out : io.Writer)
    (mask : Z) (c : bool) (l : Logger) (format : string) (attrs : list any) :
  NewLogger lvl out mask c = (Some l, None) ->
  sinkOf (fst (Fatal w l format attrs)) =
    (io.received out ++ [emitted w l LevelFatal format attrs])%list /\
  snd (Fatal w l format attrs) = Exits 0.
Proof.
  intros Hnew. unfold NewLogger in Hnew.
  destruct (levelRange lvl) eqn:R; [|discriminate Hnew].
  injection Hnew as <-. apply levelRange_spec in R.
  unfold Fatal. rewrite print_emits; [split; reflexivity | reflexivity |].
  cbn. unfold LevelFatal. lia.
Qed.

Lemma Fatal_written_on_new_logger_witness :
  sinkOf (fst (Fatal world0 plainLogger "x" [])) =
    (io.received memorySink
       ++ [emitted world0 plainLogger LevelFatal "x" []])%list /\
  snd (Fatal world0 plainLogger "x" []) = Exits 0.
Proof.
  apply (Fatal_written_on_new_logger world0 LevelInfo memorySink 0 false
           plainLogger "x" []).
  reflexivity.
Defined.

(** ** Messages without verbs *)

Lemma Sprintf_verbatim (format : string) :
  no_percent format = true -> fmt.Sprintf format [] = format.
Proof.
  induction format as [|c format IH]; intros H; [reflexivity|].
  cbn [no_percent] in H. apply andb_true_iff in H. destruct H as [Hc H].
  apply negb_true_iff in Hc.
  assert (Hstep : fmt.Sprintf (String c format) []
                  = String c (fmt.Sprintf format [])).
  { destruct (Ascii.eqb_spec c "%"%char) as [->|Hne]; [discriminate Hc|].
    destruct c as [[] [] [] [] [] [] [] []]; try reflexivity.
    contradiction Hne. reflexivity. }
  rewrite Hstep, (IH H). reflexivity.
Qed.

(** X18: a message without the verb marker and without operands is written
    as it stands: the line is the prefix, a space, the message itself and a
    newline. *)
Theorem plain_message_verbatim (w : World) (l : Logger) (lvl : Z)
    (format : string) :
  enabled l = true -> level l <= lvl -> no_percent format = true ->
  snd (Log w l lvl format []) = None /\
  sinkOf (fst (Log w l lvl format [])) =
    (sinkOf l ++ [(stats w l lvl ++ " " ++ format ++ LF)%string])%list.
Proof.
  intros E Hle Hp. unfold Log.
  rewrite (print_emits w l lvl format [] E Hle). unfold emitted.
  rewrite (Sprintf_verbatim format Hp). split; reflexivity.
Qed.

Lemma plain_message_verbatim_witness :
  snd (Log world0 plainLogger LevelInfo "Hello world!" []) = None /\
  sinkOf (fst (Log world0 plainLogger LevelInfo "Hello world!" [])) =
    [" Hello world!" ++ LF].
Proof.
  apply (plain_message_verbatim world0 plainLogger LevelInfo "Hello world!");
    [reflexivity | cbn; unfold LevelInfo; lia | reflexivity].
Defined.

(** ** Colors in the written line *)

(** X19: when the mask asks for the level and the level is one of the five
    valid ones, the line written with colors on differs from the line
    written with colors off: right after the opening bracket the first
    carries the escape byte of the color code, the second the first letter
    of the label. *)
Theorem coloring_changes_the_line (w : World) (l : Logger) (lvl : Z)
    (format : string) (attrs : list any) :
  Z.land (require l) RequireLevel <> 0 -> 0 <= lvl <= 4 ->
  String.prefix ("[" ++ ESC)
    (emitted w (SetColoring l true) lvl format attrs) = true /\
  String.prefix ("[" ++ ESC)
    (emitted w (SetColoring l false) lvl format attrs) = false /\
  emitted w (SetColoring l true) lvl format attrs
    <> emitted w (SetColoring l false) lvl format attrs.
Proof.
  intros Hbit Hlvl.
  assert (Hall : forall c, Z.land (require (SetColoring l c)) RequireAll <> 0)
    by (intros c; cbn [require SetColoring]; rewrite mask_bits; tauto).
  assert (Hon : String.prefix ("[" ++ ESC)
                  (emitted w (SetColoring l true) lvl format attrs) = true).
  { unfold emitted. rewrite (stats_layout _ _ _ (Hall true)).
    unfold levelSegment. cbn [require SetColoring colored].
    destruct (Z.eqb_spec (Z.land (require l) RequireLevel) 0);
      [contradiction|].
    destruct (valid_level_cases lvl Hlvl) as [-> | [-> | [-> | [-> | ->]]]];
      reflexivity. }
  assert (Hoff : String.prefix ("[" ++ ESC)
                   (emitted w (SetColoring l false) lvl format attrs) = false).
  { unfold emitted. rewrite (stats_layout _ _ _ (Hall false)).
    unfold levelSegment. cbn [require SetColoring colored].
    destruct (Z.eqb_spec (Z.land (require l) RequireLevel) 0);
      [contradiction|].
    destruct (valid_level_cases lvl Hlvl) as [-> | [-> | [-> | [-> | ->]]]];
      reflexivity. }
  split; [exact Hon|]. split; [exact Hoff|].
  intros Heq. rewrite Heq, Hoff in Hon. discriminate Hon.
Qed.

Lemma coloring_changes_the_line_witness :
  String.prefix ("[" ++ ESC)
    (emitted world0 (SetColoring (mkLogger 0 memorySink RequireAll true false)
                       true) LevelError "x" []) = true /\
  String.prefix ("[" ++ ESC)
    (emitted world0 (SetColoring (mkLogger 0 memorySink RequireAll true false)
                       false) LevelError "x" []) = false /\
  emitted world0 (SetColoring (mkLogger 0 memorySink RequireAll true false)
                    true) LevelError "x" []
    <> emitted world0 (SetColoring (mkLogger 0 memorySink RequireAll true
                                      false) false) LevelError "x" [].
Proof.
  apply (coloring_changes_the_line world0
           (mkLogger 0 memorySink RequireAll true false) LevelError "x" []).
  - cbv. discriminate.
  - unfold LevelError. lia.
Defined.
